(** * Tronbyt Home Assistant integration: a shallow embedding of the
    API client ([TronbytAPI] in [custom_components/tronbyt/__init__.py]),
    its update coordinator and the light entity ([light.py]).

    Python values decoded from the vendor's JSON are modelled by [json];
    a Python dict decoded from JSON is an association list with unique
    keys.  Exceptions are values of [exn], and code that may raise runs
    in the small error monad [result].  Numbers are integers: JSON floats
    are not modelled.  The aiohttp session is a function from the request
    issued to its outcome (a transport exception, or a response whose
    body may be read as text or as JSON, each of which may raise). *)

From Stdlib Require Import String Ascii List ZArith Bool Lia.
Import ListNotations.
Open Scope string_scope.
Open Scope Z_scope.
#[local] Set Warnings "-register-all".

(** ** Python values and exceptions *)

Inductive json : Type :=
| JNull
| JBool (b : bool)
| JNum (n : Z)
| JStr (s : string)
| JArr (xs : list json)
| JObj (kvs : list (string * json)).

(** The [Exception] subclasses the code can meet.  Every one of them is
    caught by an [except Exception] clause. *)
Inductive exn : Type :=
| KeyError (key : string)
| TypeError (msg : string)
| AttributeError (msg : string)
| ValueError (msg : string)
| ClientError (msg : string)      (* aiohttp transport errors, timeouts *)
| DecodeError (msg : string)      (* response.json() / response.text() *)
| UpdateFailed (msg : string).

(** [str(e)]. *)
Definition exn_str (e : exn) : string :=
  match e with
  | KeyError k => "'" ++ k ++ "'"
  | TypeError m | AttributeError m | ValueError m | ClientError m
  | DecodeError m | UpdateFailed m => m
  end.

Inductive result (A : Type) : Type :=
| Ok (a : A)
| Raise (e : exn).
Arguments Ok {A} a.
Arguments Raise {A} e.

Definition bind {A B} (m : result A) (k : A -> result B) : result B :=
  match m with
  | Ok a => k a
  | Raise e => Raise e
  end.

Notation "x <- m ;; k" := (bind m (fun x => k))
  (at level 61, m at next level, right associativity).

(** [try: body except Exception as e: handler(e)]. *)
Definition try_except {A} (body : result A) (handler : exn -> result A)
  : result A :=
  match body with
  | Ok a => Ok a
  | Raise e => handler e
  end.

Fixpoint assoc_lookup (k : string) (kvs : list (string * json)) : option json :=
  match kvs with
  | [] => None
  | (k', v) :: rest => if String.eqb k k' then Some v else assoc_lookup k rest
  end.

(** [d.get(k, default)]: only dicts have [.get]. *)
Definition py_get (d : json) (k : string) (default : json) : result json :=
  match d with
  | JObj kvs =>
      match assoc_lookup k kvs with
      | Some v => Ok v
      | None => Ok default
      end
  | _ => Raise (AttributeError "object has no attribute 'get'")
  end.

(** [d[k]] with a string key. *)
Definition py_getitem (d : json) (k : string) : result json :=
  match d with
  | JObj kvs =>
      match assoc_lookup k kvs with
      | Some v => Ok v
      | None => Raise (KeyError k)
      end
  | JStr _ => Raise (TypeError "string indices must be integers")
  | JArr _ => Raise (TypeError "list indices must be integers or slices, not str")
  | _ => Raise (TypeError "object is not subscriptable")
  end.

Fixpoint string_chars (s : string) : list json :=
  match s with
  | EmptyString => []
  | String c rest => JStr (String c EmptyString) :: string_chars rest
  end.

(** [for x in v]: lists yield their items, strings their characters,
    dicts their keys. *)
Definition py_iter (v : json) : result (list json) :=
  match v with
  | JArr xs => Ok xs
  | JStr s => Ok (string_chars s)
  | JObj kvs => Ok (map (fun kv => JStr (fst kv)) kvs)
  | _ => Raise (TypeError "object is not iterable")
  end.

(** [v == s] for a Python str [s]. *)
Definition py_eq_str (v : json) (s : string) : bool :=
  match v with
  | JStr s' => String.eqb s' s
  | _ => false
  end.

(** [bool(v)]. *)
Definition py_truthy (v : json) : bool :=
  match v with
  | JNull => false
  | JBool b => b
  | JNum n => negb (n =? 0)
  | JStr s => negb (String.eqb s "")
  | JArr xs => match xs with [] => false | _ => true end
  | JObj kvs => match kvs with [] => false | _ => true end
  end.

(** [v[0]]. *)
Definition py_index0 (v : json) : result json :=
  match v with
  | JArr (x :: _) => Ok x
  | JArr [] => Raise (TypeError "list index out of range")
  | JStr (String c _) => Ok (JStr (String c EmptyString))
  | JStr EmptyString => Raise (TypeError "string index out of range")
  | JObj _ => Raise (KeyError "0")
  | _ => Raise (TypeError "object is not subscriptable")
  end.

(** ** HTTP *)

(** A response body: what [await response.text()] and
    [await response.json()] produce (or raise). *)
Record body : Type := mk_body {
  body_text : result string;
  body_json : result json
}.

Inductive http_outcome : Type :=
| Transport (e : exn)                 (* raised by session.get / patch / post *)
| Response (status : Z) (b : body).

Inductive http_method : Type := GET | PATCH | POST.

Record request : Type := mk_request {
  req_method : http_method;
  req_url : string;
  req_json : option json
}.

(** The aiohttp session, seen from the client: the outcome of each request. *)
Definition session := request -> http_outcome.

(** [async with session.<method>(...) as response]: the response, or the
    transport exception raised. *)
Definition send (sess : session) (r : request) : result (Z * body) :=
  match sess r with
  | Transport e => Raise e
  | Response st b => Ok (st, b)
  end.

Fixpoint rstrip_slash_rev (s : list ascii) : list ascii :=
  match s with
  | c :: rest => if Ascii.eqb c "/"%char then rstrip_slash_rev rest else s
  | [] => []
  end.

(** [s.rstrip('/')]. *)
Definition rstrip_slash (s : string) : string :=
  string_of_list_ascii (rev (rstrip_slash_rev (rev (list_ascii_of_string s)))).

Record TronbytAPI : Type := mk_TronbytAPI {
  base_url : string;
  username : string;
  api_key : string
}.

(** [TronbytAPI.__init__]. *)
Definition TronbytAPI_init (base : string) (user key : string) : TronbytAPI :=
  mk_TronbytAPI (rstrip_slash base) user key.

Definition devices_url (api : TronbytAPI) : string :=
  base_url api ++ "/v0/devices".

Definition device_url (api : TronbytAPI) (device_id : string) : string :=
  base_url api ++ "/v0/devices/" ++ device_id.

Definition installations_url (api : TronbytAPI) (device_id : string) : string :=
  base_url api ++ "/v0/devices/" ++ device_id ++ "/installations".

(** ** Status snapshot

    The dict returned by [get_device_status]; an absent key is [None]. *)
Record snapshot : Type := mk_snapshot {
  online : bool;
  status : string;
  brightness : option json;
  auto_dim : option json;
  current_app : option json;
  error : option string
}.

Section Client.
Variable api : TronbytAPI.
Variable sess : session.

(** [_get_current_app]: [JNull] is Python's [None]. *)
Definition _get_current_app (device_id : string) : result json :=
  try_except
    (r <- send sess (mk_request GET (installations_url api device_id) None) ;;
     let '(st, b) := r in
     if st =? 200 then
       data <- body_json b ;;
       installations <- py_get data "installations" (JArr []) ;;
       if py_truthy installations then
         first <- py_index0 installations ;;
         py_get first "appID" (JStr "Unknown")
       else Ok JNull
     else Ok JNull)
    (fun _ => Ok JNull).

(** The [for device in devices] scan of [get_device_status]: the first
    device whose ["id"] equals [device_id]. *)
Fixpoint find_device (device_id : string) (devices : list json)
  : result (option json) :=
  match devices with
  | [] => Ok None
  | device :: rest =>
      i <- py_getitem device "id" ;;
      if py_eq_str i device_id then Ok (Some device)
      else find_device device_id rest
  end.

Definition get_device_status (device_id : string) : result snapshot :=
  try_except
    (r <- send sess (mk_request GET (devices_url api) None) ;;
     let '(st, b) := r in
     if st =? 200 then
       data <- body_json b ;;
       devices_v <- py_get data "devices" (JArr []) ;;
       devices <- py_iter devices_v ;;
       found <- find_device device_id devices ;;
       match found with
       | Some device =>
           br <- py_get device "brightness" (JNum 50) ;;
           ad <- py_get device "autoDim" (JBool false) ;;
           app <- _get_current_app device_id ;;
           Ok (mk_snapshot true "connected" (Some br) (Some ad) (Some app) None)
       | None => Ok (mk_snapshot false "not_found" None None None None)
       end
     else Ok (mk_snapshot false "api_error" None None None None))
    (fun e => Ok (mk_snapshot false "error" None None None (Some (exn_str e)))).

(** [get_devices]: the [for device in devices] loop appending the
    transformed records. *)
Definition transform_device (device : json) : result json :=
  i <- py_getitem device "id" ;;
  n <- py_getitem device "displayName" ;;
  br <- py_get device "brightness" (JNum 50) ;;
  ad <- py_get device "autoDim" (JBool false) ;;
  Ok (JObj [("id", i); ("name", n); ("brightness", br); ("auto_dim", ad);
            ("model", JStr "Tronbyt Display"); ("online", JBool true)]).

Fixpoint transform_loop (transformed_devices : list json) (devices : list json)
  : result (list json) :=
  match devices with
  | [] => Ok transformed_devices
  | device :: rest =>
      t <- transform_device device ;;
      transform_loop (transformed_devices ++ [t]) rest
  end.

Definition get_devices : result (list json) :=
  try_except
    (r <- send sess (mk_request GET (devices_url api) None) ;;
     let '(st, b) := r in
     if st =? 200 then
       data <- body_json b ;;
       devices_v <- py_get data "devices" (JArr []) ;;
       devices <- py_iter devices_v ;;
       transform_loop [] devices
     else Ok [])
    (fun _ => Ok []).

(** [set_device_brightness]: the logging calls cannot raise and are
    omitted; [await response.text()] is kept, as it may raise. *)
Definition set_device_brightness (device_id : string) (brightness : json)
  : result bool :=
  try_except
    (r <- send sess (mk_request PATCH (device_url api device_id)
                                (Some (JObj [("brightness", brightness)]))) ;;
     let '(st, b) := r in
     response_text <- body_text b ;;
     Ok (orb (st =? 200) (st =? 204)))
    (fun _ => Ok false).

Definition set_device_power (device_id : string) (state : bool) : result bool :=
  try_except
    (let brightness := if state then 50 else 0 in
     set_device_brightness device_id (JNum brightness))
    (fun _ => Ok false).

(** ** Update coordinator

    [DataUpdateCoordinator] keeps the last data and the
    [last_update_success] flag; a refresh runs [_async_update_data],
    stores its result on success and keeps the old data, flagging the
    failure, when it raises. *)
Record coordinator : Type := mk_coordinator {
  coord_device_id : string;
  data : snapshot;
  last_update_success : bool
}.

Definition _async_update_data (c : coordinator) : result snapshot :=
  try_except
    (get_device_status (coord_device_id c))
    (fun e => Raise (UpdateFailed ("Error communicating with API: " ++ exn_str e))).

Definition async_refresh (c : coordinator) : coordinator :=
  match _async_update_data c with
  | Ok d => mk_coordinator (coord_device_id c) d true
  | Raise _ => mk_coordinator (coord_device_id c) (data c) false
  end.

(** [async_request_refresh]: one out-of-cycle refresh. *)
Definition async_request_refresh (c : coordinator) : coordinator :=
  async_refresh c.

End Client.

(** ** Light entity *)

(** [self.coordinator.data.get("brightness", default)]. *)
Definition data_get_brightness (d : snapshot) (default : json) : json :=
  match brightness d with
  | Some v => v
  | None => default
  end.

(** [v > 0]. *)
Definition py_gt_zero (v : json) : result bool :=
  match v with
  | JNum n => Ok (0 <? n)
  | JBool b => Ok b
  | _ => Raise (TypeError "'>' not supported between instances")
  end.

(** [v == 0]. *)
Definition py_eq_zero (v : json) : bool :=
  match v with
  | JNum n => n =? 0
  | JBool b => negb b
  | _ => false
  end.

Fixpoint digits_value (cs : list ascii) (acc : Z) : option Z :=
  match cs with
  | [] => Some acc
  | c :: rest =>
      let d := Z.of_nat (nat_of_ascii c) - 48 in
      if (0 <=? d) && (d <=? 9) then digits_value rest (acc * 10 + d) else None
  end.

(** [int(s)] for a string: an optional sign followed by decimal digits
    (surrounding whitespace and digit separators are not modelled). *)
Definition parse_int (s : string) : option Z :=
  match list_ascii_of_string s with
  | "-"%char :: (_ :: _) as ds => option_map Z.opp (digits_value ds 0)
  | "+"%char :: (_ :: _) as ds => digits_value ds 0
  | (_ :: _) as ds => digits_value ds 0
  | [] => None
  end.

(** [int(v)]. *)
Definition py_int (v : json) : result Z :=
  match v with
  | JNum n => Ok n
  | JBool b => Ok (if b then 1 else 0)
  | JStr s =>
      match parse_int s with
      | Some n => Ok n
      | None => Raise (ValueError "invalid literal for int()")
      end
  | _ => Raise (TypeError "int() argument must be a string or a number")
  end.

Record TronbytLight : Type := mk_TronbytLight {
  light_device_id : string;
  light_coordinator : coordinator
}.

Definition is_on (l : TronbytLight) : result bool :=
  py_gt_zero (data_get_brightness (data (light_coordinator l)) (JNum 0)).

(** The [brightness] property. *)
Definition light_brightness (l : TronbytLight) : result (option Z) :=
  match data_get_brightness (data (light_coordinator l)) (JNum 0) with
  | JNull => Ok None
  | v => n <- py_int v ;; Ok (Some n)
  end.

Definition available (l : TronbytLight) : bool :=
  online (data (light_coordinator l)).

(** The brightness [async_turn_on] dispatches: [arg] is
    [kwargs.get(ATTR_BRIGHTNESS)], an int when present. *)
Definition turn_on_brightness (arg : option Z) (d : snapshot) : json :=
  match arg with
  | Some b => JNum (Z.max b 1)
  | None =>
      let current_brightness := data_get_brightness d (JNum 0) in
      if py_eq_zero current_brightness then JNum 128 else current_brightness
  end.

(** Calls the entity makes, in order. *)
Inductive event : Type :=
| SetBrightness (device_id : string) (v : json)
| RequestRefresh.

Section Light.
Variable api : TronbytAPI.
Variable sess : session.

Definition async_turn_on (arg : option Z) (l : TronbytLight)
  : result (TronbytLight * list event) :=
  let id := light_device_id l in
  let c := light_coordinator l in
  let api_brightness := turn_on_brightness arg (data c) in
  success <- set_device_brightness api sess id api_brightness ;;
  if success then
    Ok (mk_TronbytLight id (async_request_refresh api sess c),
        [SetBrightness id api_brightness; RequestRefresh])
  else Ok (l, [SetBrightness id api_brightness]).

Definition async_turn_off (l : TronbytLight)
  : result (TronbytLight * list event) :=
  let id := light_device_id l in
  let c := light_coordinator l in
  success <- set_device_brightness api sess id (JNum 0) ;;
  if success then
    Ok (mk_TronbytLight id (async_request_refresh api sess c),
        [SetBrightness id (JNum 0); RequestRefresh])
  else Ok (l, [SetBrightness id (JNum 0)]).

End Light.

(** ** The rest of the API client *)

Section ClientRest.
Variable api : TronbytAPI.
Variable sess : session.

(** [test_connection]: the body is not read. *)
Definition test_connection : result bool :=
  try_except
    (r <- send sess (mk_request GET (devices_url api) None) ;;
     let '(st, _) := r in
     Ok (st =? 200))
    (fun _ => Ok false).

(** Attribute access on a [TronbytAPI] instance: [__init__] sets
    [base_url], [username], [api_key], [session] and [_headers] only. *)
Definition api_getattr (name : string) : result json :=
  if String.eqb name "base_url" then Ok (JStr (base_url api))
  else if String.eqb name "username" then Ok (JStr (username api))
  else if String.eqb name "api_key" then Ok (JStr (api_key api))
  else if orb (String.eqb name "session") (String.eqb name "_headers") then Ok JNull
  else Raise (AttributeError ("'TronbytAPI' object has no attribute '" ++ name ++ "'")).

(** [_get_devices_fallback]: the class body defines it twice and the
    second definition is the one bound.  Its call arguments are evaluated
    before the request is sent: [self._auth] first, then [self.host] when
    the answer is 200. *)
Definition _get_devices_fallback : result (list json) :=
  try_except
    (auth <- api_getattr "_auth" ;;
     r <- send sess (mk_request GET (base_url api ++ "/next") None) ;;
     let '(st, _) := r in
     if st =? 200 then
       host <- api_getattr "host" ;;
       Ok [JObj [("id", JStr "default");
                 ("name", JStr ("Tronbyt Display ("
                                ++ match host with JStr h => h | _ => "" end ++ ")"));
                 ("host", host);
                 ("model", JStr "Tronbyt Display");
                 ("online", JBool true)]]
     else Ok [])
    (fun _ => Ok []).

Definition apps_url : string := base_url api ++ "/v0/apps".

(** [get_apps(device_id=None)]: a falsy [device_id] ([None] or the empty
    string) selects the global catalogue.  The value returned is whatever
    the JSON holds. *)
Definition get_apps (device_id : option string) : result json :=
  try_except
    (match device_id with
     | Some id =>
         if negb (String.eqb id "") then
           r <- send sess (mk_request GET (installations_url api id) None) ;;
           let '(st, b) := r in
           if st =? 200 then
             data <- body_json b ;;
             py_get data "installations" (JArr [])
           else Ok (JArr [])
         else
           r <- send sess (mk_request GET apps_url None) ;;
           let '(st, b) := r in
           if st =? 200 then
             data <- body_json b ;;
             match data with
             | JObj _ => py_get data "apps" data
             | _ => Ok data
             end
           else Ok (JArr [])
     | None =>
         r <- send sess (mk_request GET apps_url None) ;;
         let '(st, b) := r in
         if st =? 200 then
           data <- body_json b ;;
           match data with
           | JObj _ => py_get data "apps" data
           | _ => Ok data
           end
         else Ok (JArr [])
     end)
    (fun _ => Ok (JArr [])).

Definition set_device_app (device_id app_id : string) : result bool :=
  try_except
    (r <- send sess (mk_request POST (installations_url api device_id)
                                (Some (JObj [("appId", JStr app_id)]))) ;;
     let '(st, _) := r in
     Ok (orb (st =? 200) (orb (st =? 201) (st =? 204))))
    (fun _ => Ok false).

End ClientRest.

(** ** Services *)

Fixpoint string_drop (n : nat) (s : string) : string :=
  match n, s with
  | O, _ => s
  | S _, EmptyString => EmptyString
  | S n', String _ rest => string_drop n' rest
  end.

(** [s.replace(old, new)] for a non-empty [old]: occurrences are replaced
    left to right, the scan resuming after each replaced occurrence. *)
Fixpoint replace_fuel (fuel : nat) (old new s : string) : string :=
  match fuel with
  | O => s
  | S f =>
      match s with
      | EmptyString => EmptyString
      | String c rest =>
          if String.prefix old s
          then new ++ replace_fuel f old new (string_drop (String.length old) s)
          else String c (replace_fuel f old new rest)
      end
  end.

Definition py_replace (old new s : string) : string :=
  replace_fuel (String.length s) old new s.

(** The device id the service handlers read off an entity id. *)
Definition entity_device_id (entity_id : string) : string :=
  py_replace "_light" "" (py_replace "light.tronbyt_" "" entity_id).

Definition is_tronbyt_entity (entity_id : string) : bool :=
  negb (String.eqb entity_id "") && String.prefix "light.tronbyt_" entity_id.

Section Services.
Variable api : TronbytAPI.
Variable sess : session.

(** [handle_set_brightness]: the schema makes [entity_id] a str and
    [brightness] an int in 0..100.  Returns the [(device_id, brightness)]
    passed to [set_device_brightness], if any; its result is dropped. *)
Definition handle_set_brightness (entity_id : string) (brightness : Z)
  : result (option (string * json)) :=
  if is_tronbyt_entity entity_id then
    let device_id := entity_device_id entity_id in
    _ <- set_device_brightness api sess device_id (JNum brightness) ;;
    Ok (Some (device_id, JNum brightness))
  else Ok None.

(** [handle_set_app]: returns the [(device_id, app_id)] passed to
    [set_device_app], if any. *)
Definition handle_set_app (entity_id app_id : string)
  : result (option (string * string)) :=
  if is_tronbyt_entity entity_id && negb (String.eqb app_id "") then
    let device_id := entity_device_id entity_id in
    _ <- set_device_app api sess device_id app_id ;;
    Ok (Some (device_id, app_id))
  else Ok None.

End Services.

(** ** [TronbytLight.extra_state_attributes] *)

(** [if x := data.get(k): attributes[k'] = x]. *)
Definition add_if_truthy (k : string) (v : option json)
  (attributes : list (string * json)) : list (string * json) :=
  match v with
  | Some x => if py_truthy x then attributes ++ [(k, x)] else attributes
  | None => attributes
  end.

Definition extra_state_attributes (l : TronbytLight) : list (string * json) :=
  let d := data (light_coordinator l) in
  let attributes := [("device_id", JStr (light_device_id l)); ("status", JStr (status d))] in
  let attributes := add_if_truthy "api_brightness" (brightness d) attributes in
  let attributes := add_if_truthy "current_app" (current_app d) attributes in
  add_if_truthy "auto_dim" (auto_dim d) attributes.

(** ** Config flow ([config_flow.py]) *)

(** Exceptions of the flow: the Python ones, the flow's own [CannotConnect]
    and [InvalidAuth], and Home Assistant's [AbortFlow].  All of them are
    [Exception] subclasses ([HomeAssistantError] for the last three). *)
Inductive flow_exn : Type :=
| FlowPy (e : exn)
| CannotConnect
| InvalidAuth
| AbortFlow (reason : string).

Inductive flow_result (A : Type) : Type :=
| FOk (a : A)
| FRaise (e : flow_exn).
Arguments FOk {A} a.
Arguments FRaise {A} e.

Definition lift {A} (m : result A) : flow_result A :=
  match m with
  | Ok a => FOk a
  | Raise e => FRaise (FlowPy e)
  end.

Definition fbind {A B} (m : flow_result A) (k : A -> flow_result B) : flow_result B :=
  match m with
  | FOk a => k a
  | FRaise e => FRaise e
  end.

Notation "x <-- m ;; k" := (fbind m (fun x => k))
  (at level 61, m at next level, right associativity).

(** The [for device in devices] loop of [_test_connection]. *)
Fixpoint flow_transform_loop (transformed_devices devices : list json)
  : result (list json) :=
  match devices with
  | [] => Ok transformed_devices
  | device :: rest =>
      i <- py_getitem device "id" ;;
      n <- py_getitem device "displayName" ;;
      br <- py_get device "brightness" (JNum 50) ;;
      flow_transform_loop (transformed_devices ++ [JObj [("id", i); ("name", n); ("brightness", br)]]) rest
  end.

(** [TronbytConfigFlow._test_connection]: every exception of the [try]
    block, [InvalidAuth] included, is caught by one of the two [except]
    clauses, which both raise [CannotConnect]. *)
Definition _test_connection (sess : session) (base_url : string) : flow_result (list json) :=
  match
    (r <-- lift (send sess (mk_request GET (base_url ++ "/v0/devices") None)) ;;
     let '(st, b) := r in
     if st =? 401 then FRaise InvalidAuth
     else if negb (st =? 200) then FRaise CannotConnect
     else
       lift (data <- body_json b ;;
             devices_v <- py_get data "devices" (JArr []) ;;
             devices <- py_iter devices_v ;;
             flow_transform_loop [] devices))
  with
  | FOk devices => FOk devices
  | FRaise _ => FRaise CannotConnect
  end.

Definition is_py_space (c : ascii) : bool :=
  existsb (Nat.eqb (nat_of_ascii c)) [32; 9; 10; 11; 12; 13]%nat.

Fixpoint lstrip_chars (cs : list ascii) : list ascii :=
  match cs with
  | c :: rest => if is_py_space c then lstrip_chars rest else cs
  | [] => []
  end.

(** [s.strip()] for ASCII whitespace (other Unicode spaces not modelled). *)
Definition py_strip (s : string) : string :=
  string_of_list_ascii
    (rev (lstrip_chars (rev (lstrip_chars (list_ascii_of_string s))))).

(** A [user] step input, as the schema delivers it: three strings. *)
Record user_input : Type := mk_user_input {
  in_base_url : string;
  in_username : string;
  in_api_key : string
}.

(** What a flow step returns. *)
Inductive FlowResult : Type :=
| ShowUserForm (errors : list (string * string))
| ShowDevicesForm (base_url : string) (devices : list json).

Section ConfigFlow.
(** [urlparse(url).hostname], from the standard library. *)
Variable urlparse_hostname : string -> option string.
Variable sess : session.
(** The unique ids of the entries already configured. *)
Variable configured : list string.

Definition _normalize_url (url : string) : flow_result string :=
  let url := rstrip_slash (py_strip url) in
  let url := if orb (String.prefix "http://" url) (String.prefix "https://" url)
             then url else "https://" ++ url in
  match urlparse_hostname url with
  | Some h => if String.eqb h "" then FRaise (FlowPy (ValueError "Invalid URL")) else FOk url
  | None => FRaise (FlowPy (ValueError "Invalid URL"))
  end.

(** [_abort_if_unique_id_configured]. *)
Definition abort_if_unique_id_configured (unique_id : string) : flow_result unit :=
  if existsb (String.eqb unique_id) configured
  then FRaise (AbortFlow "already_configured") else FOk tt.

Definition async_step_user (input : option user_input) : FlowResult :=
  match input with
  | None => ShowUserForm []
  | Some ui =>
      let outcome :=
        (base_url <-- _normalize_url (in_base_url ui) ;;
         devices <-- _test_connection sess base_url ;;
         match devices with
         | _ :: _ =>
             _ <-- abort_if_unique_id_configured (base_url ++ "_" ++ in_username ui) ;;
             FOk (ShowDevicesForm base_url devices)
         | [] => FOk (ShowUserForm [("base", "no_devices")])
         end) in
      match outcome with
      | FOk r => r
      | FRaise CannotConnect => ShowUserForm [("base", "cannot_connect")]
      | FRaise InvalidAuth => ShowUserForm [("base", "invalid_auth")]
      | FRaise _ => ShowUserForm [("base", "unknown")]
      end
  end.

End ConfigFlow.

(** ** A concrete vendor server *)

Definition api0 : TronbytAPI :=
  TronbytAPI_init "http://tronbyt.local:8000/" "alice" "secret".

Definition json_body (j : json) : body := mk_body (Ok "") (Ok j).

Definition vendor_device (id name : string) (br : Z) : json :=
  JObj [("id", JStr id); ("displayName", JStr name); ("brightness", JNum br)].

(** Answers the device list with the device [d1] ("Lobby", brightness 128)
    and every installations query with one installed [clock] app; PATCH
    answers 204. *)
Definition lobby_session : session :=
  fun r =>
    match req_method r with
    | GET =>
        if String.eqb (req_url r) (devices_url api0) then
          Response 200 (json_body (JObj [("devices", JArr [vendor_device "d1" "Lobby" 128])]))
        else
          Response 200 (json_body (JObj [("installations", JArr [JObj [("appID", JStr "clock")]])]))
    | PATCH => Response 204 (json_body JNull)
    | POST => Response 201 (json_body JNull)
    end.

(** The same server answering every request with HTTP 500. *)
Definition failing_session : session :=
  fun _ => Response 500 (mk_body (Ok "Internal Server Error") (Raise (DecodeError "not JSON"))).

(** A server that cannot be reached. *)
Definition refused_session : session :=
  fun _ => Transport (ClientError "Cannot connect to host tronbyt.local:8000").

Example base_url_stripped : base_url api0 = "http://tronbyt.local:8000".
Proof. reflexivity. Qed.

Example lobby_status :
  get_device_status api0 lobby_session "d1" =
  Ok (mk_snapshot true "connected" (Some (JNum 128)) (Some (JBool false))
                  (Some (JStr "clock")) None).
Proof. vm_compute. reflexivity. Qed.

Example lobby_status_missing :
  get_device_status api0 lobby_session "d2" =
  Ok (mk_snapshot false "not_found" None None None None).
Proof. vm_compute. reflexivity. Qed.

Example failing_status :
  get_device_status api0 failing_session "d1" =
  Ok (mk_snapshot false "api_error" None None None None).
Proof. vm_compute. reflexivity. Qed.

Example refused_status :
  get_device_status api0 refused_session "d1" =
  Ok (mk_snapshot false "error" None None None
                  (Some "Cannot connect to host tronbyt.local:8000")).
Proof. vm_compute. reflexivity. Qed.

Example lobby_devices_transformed :
  get_devices api0 lobby_session =
  Ok [JObj [("id", JStr "d1"); ("name", JStr "Lobby"); ("brightness", JNum 128);
            ("auto_dim", JBool false); ("model", JStr "Tronbyt Display");
            ("online", JBool true)]].
Proof. vm_compute. reflexivity. Qed.

(** ** Helper lemmas *)

Lemma try_except_total {A} (m : result A) (h : exn -> result A) :
  (forall e, exists a, h e = Ok a) -> exists a, try_except m h = Ok a.
Proof. intros H. destruct m as [a|e]; simpl; eauto. Qed.

Lemma get_device_status_total api sess device_id :
  exists s, get_device_status api sess device_id = Ok s.
Proof. unfold get_device_status. apply try_except_total. intros e. eauto. Qed.

Lemma py_eq_str_other (i : json) (s : string) :
  i <> JStr s -> py_eq_str i s = false.
Proof.
  intros Hne. destruct i; try reflexivity. simpl.
  apply String.eqb_neq. intros ->. apply Hne. reflexivity.
Qed.

Lemma find_device_absent device_id devices :
  Forall (fun d => exists kvs i, d = JObj kvs /\ assoc_lookup "id" kvs = Some i
                                 /\ i <> JStr device_id) devices ->
  find_device device_id devices = Ok None.
Proof.
  induction 1 as [|d ds [kvs [i [-> [Hi Hne]]]] _ IH]; [reflexivity|].
  simpl. unfold py_getitem. rewrite Hi. simpl.
  rewrite (py_eq_str_other _ _ Hne). exact IH.
Qed.

Lemma async_refresh_stores api sess c :
  exists s, get_device_status api sess (coord_device_id c) = Ok s /\
            _async_update_data api sess c = Ok s /\
            async_refresh api sess c = mk_coordinator (coord_device_id c) s true.
Proof.
  destruct (get_device_status_total api sess (coord_device_id c)) as [s Hs].
  exists s. unfold async_refresh, _async_update_data. rewrite Hs. simpl. auto.
Qed.

Ltac split_matches H :=
  repeat match type of H with
         | context [match ?x with _ => _ end] =>
             lazymatch x with
             | context [match _ with _ => _ end] => fail
             | _ => destruct x eqn:?
             end
         end.

(** ** Claims about [get_device_status] and the coordinator *)

(** C1: [get_device_status] never raises.  When the device list comes
    back with HTTP 200 and none of its device records carries [device_id]
    as its id, the result is [{online: false, status: not_found}]; on any
    other HTTP status it is [{online: false, status: api_error}]; when
    the request raises, it is [{online: false, status: error}] with
    [str(e)] in [error].  A coordinator refresh stores exactly that
    result, whatever snapshot the coordinator held before. *)
Theorem get_device_status_typed_results :
  forall api sess device_id,
    (exists s, get_device_status api sess device_id = Ok s) /\
    (forall b kvs devices,
        sess (mk_request GET (devices_url api) None) = Response 200 b ->
        body_json b = Ok (JObj kvs) ->
        assoc_lookup "devices" kvs = Some (JArr devices) ->
        Forall (fun d => exists kvs' i, d = JObj kvs' /\ assoc_lookup "id" kvs' = Some i
                                        /\ i <> JStr device_id) devices ->
        get_device_status api sess device_id =
        Ok (mk_snapshot false "not_found" None None None None)) /\
    (forall st b,
        sess (mk_request GET (devices_url api) None) = Response st b ->
        st <> 200 ->
        get_device_status api sess device_id =
        Ok (mk_snapshot false "api_error" None None None None)) /\
    (forall e,
        sess (mk_request GET (devices_url api) None) = Transport e ->
        get_device_status api sess device_id =
        Ok (mk_snapshot false "error" None None None (Some (exn_str e)))) /\
    (forall c,
        coord_device_id c = device_id ->
        exists s, get_device_status api sess device_id = Ok s /\
                  data (async_refresh api sess c) = s).
Proof.
  intros api sess device_id.
  split; [apply get_device_status_total|].
  split; [|split; [|split]].
  - intros b kvs devices Hs Hb Hl Hall.
    unfold get_device_status, send. rewrite Hs. simpl.
    rewrite Hb. simpl. rewrite Hl. simpl.
    rewrite (find_device_absent _ _ Hall). reflexivity.
  - intros st b Hs Hst.
    unfold get_device_status, send. rewrite Hs. simpl.
    apply Z.eqb_neq in Hst. rewrite Hst. reflexivity.
  - intros e Hs. unfold get_device_status, send. rewrite Hs. reflexivity.
  - intros c <-.
    destruct (async_refresh_stores api sess c) as [s [Hs [_ Hr]]].
    exists s. rewrite Hr. auto.
Qed.

(** C6: every snapshot [get_device_status] returns is online only when
    its status is ["connected"]. *)
Theorem get_device_status_offline_unless_connected :
  forall api sess device_id s,
    get_device_status api sess device_id = Ok s ->
    status s <> "connected" -> online s = false.
Proof.
  intros api sess device_id s H Hst.
  unfold get_device_status, try_except, bind in H.
  split_matches H; try discriminate;
    injection H as <-; simpl in *; try reflexivity; congruence.
Qed.

(** C9: [_async_update_data] never raises [UpdateFailed]: every refresh,
    scheduled or forced, stores the snapshot [get_device_status] returned
    and leaves [last_update_success] true. *)
Theorem update_never_fails :
  forall api sess c,
    (forall msg, _async_update_data api sess c <> Raise (UpdateFailed msg)) /\
    exists s, _async_update_data api sess c = Ok s /\
              async_refresh api sess c = mk_coordinator (coord_device_id c) s true /\
              async_request_refresh api sess c = mk_coordinator (coord_device_id c) s true /\
              last_update_success (async_refresh api sess c) = true.
Proof.
  intros api sess c.
  destruct (async_refresh_stores api sess c) as [s [_ [Hu Hr]]].
  split.
  - intros msg. rewrite Hu. discriminate.
  - exists s. unfold async_request_refresh. rewrite Hr. auto.
Qed.

(** ** Claims about [get_devices] *)

(** A vendor device record: a dict carrying ["id"] and ["displayName"]. *)
Definition vendor_record (d : json) : Prop :=
  exists kvs i n, d = JObj kvs /\ assoc_lookup "id" kvs = Some i
                  /\ assoc_lookup "displayName" kvs = Some n.

(** The transformed record keeps the vendor's id and names the device by
    its ["displayName"]. *)
Definition keeps_id_and_name (d t : json) : Prop :=
  py_getitem t "id" = py_getitem d "id" /\
  py_getitem t "name" = py_getitem d "displayName".

Lemma transform_device_record d :
  vendor_record d -> exists t, transform_device d = Ok t /\ keeps_id_and_name d t.
Proof.
  intros [kvs [i [n [-> [Hi Hn]]]]].
  unfold transform_device, keeps_id_and_name, py_getitem, py_get.
  rewrite Hi, Hn. simpl.
  destruct (assoc_lookup "brightness" kvs), (assoc_lookup "autoDim" kvs);
    simpl; eexists; (split; [reflexivity|]); split; reflexivity.
Qed.

Lemma transform_loop_records acc devices :
  Forall vendor_record devices ->
  exists ts, transform_loop acc devices = Ok (acc ++ ts)%list /\
             Forall2 keeps_id_and_name devices ts.
Proof.
  intros Hall. revert acc.
  induction Hall as [|d ds Hd _ IH]; intros acc.
  - exists []. rewrite app_nil_r. split; [reflexivity|constructor].
  - destruct (transform_device_record d Hd) as [t [Ht Hk]].
    destruct (IH (acc ++ [t])%list) as [ts [Hts Hall']].
    exists (t :: ts). simpl. rewrite Ht. simpl. rewrite Hts, <- app_assoc.
    split; [reflexivity|]. constructor; assumption.
Qed.

Lemma transform_loop_raises acc devices d :
  In d devices -> (exists e, transform_device d = Raise e) ->
  exists e, transform_loop acc devices = Raise e.
Proof.
  intros Hin [e He]. revert acc.
  induction devices as [|d' ds IH]; intros acc; [destruct Hin|].
  destruct Hin as [<-|Hin].
  - simpl. rewrite He. simpl. eauto.
  - simpl. destruct (transform_device d'); simpl; eauto.
Qed.

Lemma transform_device_missing_key kvs :
  assoc_lookup "id" kvs = None \/ assoc_lookup "displayName" kvs = None ->
  exists e, transform_device (JObj kvs) = Raise e.
Proof.
  intros H. unfold transform_device, py_getitem.
  destruct (assoc_lookup "id" kvs) eqn:Hi; simpl; [|eauto].
  destruct H as [H|H]; [discriminate|]. rewrite H. simpl. eauto.
Qed.

Lemma get_devices_total api sess : exists out, get_devices api sess = Ok out.
Proof. unfold get_devices. apply try_except_total. intros e. eauto. Qed.

(** C5: [get_devices] never raises.  When the device list comes back with
    HTTP 200 and holds [N] vendor device records, it returns exactly [N]
    records, the [k]-th keeping the [k]-th vendor record's id and taking
    its ["displayName"] as ["name"]; on any other status, or when the
    request raises, it returns the empty list. *)
Theorem get_devices_preserves_entries :
  forall api sess,
    (exists out, get_devices api sess = Ok out) /\
    (forall b kvs devices,
        sess (mk_request GET (devices_url api) None) = Response 200 b ->
        body_json b = Ok (JObj kvs) ->
        assoc_lookup "devices" kvs = Some (JArr devices) ->
        Forall vendor_record devices ->
        exists out, get_devices api sess = Ok out /\
                    length out = length devices /\
                    Forall2 keeps_id_and_name devices out) /\
    (forall st b,
        sess (mk_request GET (devices_url api) None) = Response st b ->
        st <> 200 -> get_devices api sess = Ok []) /\
    (forall e,
        sess (mk_request GET (devices_url api) None) = Transport e ->
        get_devices api sess = Ok []).
Proof.
  intros api sess.
  split; [apply get_devices_total|].
  split; [|split].
  - intros b kvs devices Hs Hb Hl Hall.
    destruct (transform_loop_records [] devices Hall) as [ts [Hts Hk]].
    exists ts. unfold get_devices, send. rewrite Hs. simpl.
    rewrite Hb. simpl. rewrite Hl. simpl. rewrite Hts. simpl.
    split; [reflexivity|]. split; [|exact Hk].
    symmetry. exact (Forall2_length Hk).
  - intros st b Hs Hst.
    unfold get_devices, send. rewrite Hs. simpl.
    apply Z.eqb_neq in Hst. rewrite Hst. reflexivity.
  - intros e Hs. unfold get_devices, send. rewrite Hs. reflexivity.
Qed.

(** C10: over a device list fetched with HTTP 200, one record lacking
    ["id"] or ["displayName"] makes the whole call return the empty list:
    the well-formed records are not returned on their own. *)
Theorem get_devices_all_or_nothing :
  forall api sess b kvs devices kvs',
    sess (mk_request GET (devices_url api) None) = Response 200 b ->
    body_json b = Ok (JObj kvs) ->
    assoc_lookup "devices" kvs = Some (JArr devices) ->
    In (JObj kvs') devices ->
    assoc_lookup "id" kvs' = None \/ assoc_lookup "displayName" kvs' = None ->
    get_devices api sess = Ok [].
Proof.
  intros api sess b kvs devices kvs' Hs Hb Hl Hin Hmiss.
  destruct (transform_loop_raises [] devices _ Hin
              (transform_device_missing_key kvs' Hmiss)) as [e He].
  unfold get_devices, send. rewrite Hs. simpl.
  rewrite Hb. simpl. rewrite Hl. simpl. rewrite He. reflexivity.
Qed.

(** ** Claims about the brightness commands *)

Definition patch_request (api : TronbytAPI) (device_id : string) (v : json) : request :=
  mk_request PATCH (device_url api device_id) (Some (JObj [("brightness", v)])).

Lemma set_device_brightness_total api sess device_id v :
  exists r, set_device_brightness api sess device_id v = Ok r.
Proof. unfold set_device_brightness. apply try_except_total. intros e. eauto. Qed.

Lemma set_device_brightness_transport api sess device_id v e :
  sess (patch_request api device_id v) = Transport e ->
  set_device_brightness api sess device_id v = Ok false.
Proof.
  intros Hs. unfold set_device_brightness, send.
  unfold patch_request in Hs. rewrite Hs. reflexivity.
Qed.

Lemma set_device_brightness_other_status api sess device_id v st b :
  sess (patch_request api device_id v) = Response st b ->
  st <> 200 -> st <> 204 ->
  set_device_brightness api sess device_id v = Ok false.
Proof.
  intros Hs H200 H204. unfold set_device_brightness, send.
  unfold patch_request in Hs. rewrite Hs. simpl.
  apply Z.eqb_neq in H200, H204.
  destruct (body_text b); simpl; [rewrite H200, H204|]; reflexivity.
Qed.

(** C8: [set_device_brightness] never raises and returns [True] exactly
    when the PATCH request is answered with HTTP 200 or 204 (and its body
    is read, [await response.text()] not raising); any other status, and
    any exception, give [False]. *)
Theorem set_device_brightness_success_iff :
  forall api sess device_id v,
    (exists r, set_device_brightness api sess device_id v = Ok r) /\
    (set_device_brightness api sess device_id v = Ok true <->
     exists st b t, sess (patch_request api device_id v) = Response st b /\
                    body_text b = Ok t /\ (st = 200 \/ st = 204)) /\
    (forall st b,
        sess (patch_request api device_id v) = Response st b ->
        st <> 200 -> st <> 204 ->
        set_device_brightness api sess device_id v = Ok false) /\
    (forall b,
        sess (patch_request api device_id v) = Response 200 b ->
        (exists t, body_text b = Ok t) ->
        set_device_brightness api sess device_id v = Ok true) /\
    (forall e,
        sess (patch_request api device_id v) = Transport e ->
        set_device_brightness api sess device_id v = Ok false).
Proof.
  intros api sess device_id v.
  split; [apply set_device_brightness_total|].
  split; [|split; [|split]].
  - unfold set_device_brightness, send. unfold patch_request.
    destruct (sess _) as [e|st b]; simpl.
    + split; [discriminate|]. intros (st & b & t & H & _). discriminate.
    + destruct (body_text b) as [t|e] eqn:Ht; simpl.
      * split.
        -- intros H. injection H as H. exists st, b, t. split; [reflexivity|].
           split; [exact Ht|].
           apply orb_true_iff in H as [H|H]; apply Z.eqb_eq in H; auto.
        -- intros (st' & b' & t' & H & _ & Hst). injection H as -> ->.
           destruct Hst as [->| ->]; reflexivity.
      * split; [discriminate|].
        intros (st' & b' & t' & H & Ht' & _). injection H as -> ->. congruence.
  - intros st b. apply set_device_brightness_other_status.
  - intros b Hs [t Ht]. unfold set_device_brightness, send.
    unfold patch_request in Hs. rewrite Hs. simpl. rewrite Ht. reflexivity.
  - intros e. apply set_device_brightness_transport.
Qed.

(** C2: [set_device_power] is [set_device_brightness] at 0 when turning
    off and at 50 (not 128) when turning on. *)
Theorem set_device_power_dispatch :
  forall api sess device_id,
    set_device_power api sess device_id false =
      set_device_brightness api sess device_id (JNum 0) /\
    set_device_power api sess device_id true =
      set_device_brightness api sess device_id (JNum 50).
Proof.
  intros api sess device_id. unfold set_device_power.
  destruct (set_device_brightness_total api sess device_id (JNum 0)) as [r0 H0].
  destruct (set_device_brightness_total api sess device_id (JNum 50)) as [r1 H1].
  simpl. rewrite H0, H1. auto.
Qed.

(** A server that accepts only the brightness 128 (HTTP 200) and rejects
    any other payload with HTTP 422. *)
Definition only128_session : session :=
  fun r =>
    match req_json r with
    | Some (JObj [(_, JNum n)]) =>
        if n =? 128 then Response 200 (json_body JNull)
        else Response 422 (json_body JNull)
    | _ => Response 422 (json_body JNull)
    end.

Example set_device_power_not_128 :
  set_device_power api0 only128_session "d1" true = Ok false /\
  set_device_brightness api0 only128_session "d1" (JNum 128) = Ok true.
Proof. split; reflexivity. Qed.

(** ** Claims about the light entity *)

(** C7: the light's state is read off the coordinator's snapshot:
    [available] is its [online] flag, and when its brightness is the
    integer [n] (0 when the key is absent), [is_on] is [n > 0] and the
    [brightness] property is [n]. *)
Theorem light_state_derivation :
  forall l,
    available l = online (data (light_coordinator l)) /\
    (forall n,
        data_get_brightness (data (light_coordinator l)) (JNum 0) = JNum n ->
        is_on l = Ok (0 <? n) /\ light_brightness l = Ok (Some n)).
Proof.
  intros l. split; [reflexivity|].
  intros n Hn. unfold is_on, light_brightness. rewrite Hn. auto.
Qed.

(** C3: [async_turn_on] dispatches [max(b, 1)] for a given brightness
    [b]; without one it dispatches the snapshot's brightness, or 128 when
    that is 0 (or absent).  The dispatched value is never 0, so once the
    snapshot reports it (or, after a failed command, still holds the old
    snapshot) a second [turn_on] without brightness dispatches the same
    value. *)
Theorem turn_on_brightness_idempotent :
  forall d,
    (forall b, turn_on_brightness (Some b) d = JNum (Z.max b 1)) /\
    (data_get_brightness d (JNum 0) = JNum 0 ->
     turn_on_brightness None d = JNum 128) /\
    (py_eq_zero (data_get_brightness d (JNum 0)) = false ->
     turn_on_brightness None d = data_get_brightness d (JNum 0)) /\
    py_eq_zero (turn_on_brightness None d) = false /\
    (forall d',
        data_get_brightness d' (JNum 0) = turn_on_brightness None d ->
        turn_on_brightness None d' = turn_on_brightness None d) /\
    (forall api sess sess' id c l' evs l'' evs',
        data c = d ->
        async_turn_on api sess None (mk_TronbytLight id c) = Ok (l', evs) ->
        async_turn_on api sess' None l' = Ok (l'', evs') ->
        (data (light_coordinator l') = d \/
         data_get_brightness (data (light_coordinator l')) (JNum 0) =
           turn_on_brightness None d) ->
        hd_error evs = Some (SetBrightness id (turn_on_brightness None d)) /\
        hd_error evs' = hd_error evs).
Proof.
  assert (Hnz : forall d, py_eq_zero (turn_on_brightness None d) = false).
  { intros d. unfold turn_on_brightness.
    destruct (py_eq_zero (data_get_brightness d (JNum 0))) eqn:Hz; [reflexivity|exact Hz]. }
  assert (Hfix : forall d d',
             data_get_brightness d' (JNum 0) = turn_on_brightness None d ->
             turn_on_brightness None d' = turn_on_brightness None d).
  { intros d d' H. unfold turn_on_brightness at 1. rewrite H, Hnz. reflexivity. }
  intros d. split; [reflexivity|]. split.
  { intros H. unfold turn_on_brightness. rewrite H. reflexivity. }
  split.
  { intros H. unfold turn_on_brightness. rewrite H. reflexivity. }
  split; [apply Hnz|]. split; [apply Hfix|].
  intros api sess sess' id c l' evs l'' evs' Hc H1 H2 Hrep.
  subst d. unfold async_turn_on in H1, H2.
  cbv zeta in H1, H2. cbn [light_device_id light_coordinator] in H1.
  destruct (set_device_brightness_total api sess id (turn_on_brightness None (data c)))
    as [r1 Hr1].
  rewrite Hr1 in H1. cbn [bind] in H1.
  assert (Hid : light_device_id l' = id /\
                hd_error evs = Some (SetBrightness id (turn_on_brightness None (data c)))).
  { destruct r1; injection H1 as <- <-; auto. }
  destruct Hid as [Hid Hhd]. split; [exact Hhd|]. rewrite Hhd.
  assert (Hsame : turn_on_brightness None (data (light_coordinator l')) =
                  turn_on_brightness None (data c)).
  { destruct Hrep as [Hrep|Hrep]; [rewrite Hrep; reflexivity|apply Hfix; exact Hrep]. }
  rewrite Hid, Hsame in H2.
  destruct (set_device_brightness_total api sess' id (turn_on_brightness None (data c)))
    as [r2 Hr2].
  rewrite Hr2 in H2. cbn [bind] in H2.
  destruct r2; injection H2 as <- <-; reflexivity.
Qed.

(** C4: when [set_device_brightness] returns [False] (an HTTP status
    other than 200/204, or a transport error such as a refused
    connection), [async_turn_on] and [async_turn_off] issue that one
    command, request no refresh, and return the entity unchanged, so
    [is_on], [brightness] and [available] are unchanged. *)
Theorem failed_command_leaves_state :
  forall api sess l,
    let id := light_device_id l in
    (forall arg,
        let v := turn_on_brightness arg (data (light_coordinator l)) in
        set_device_brightness api sess id v = Ok false ->
        async_turn_on api sess arg l = Ok (l, [SetBrightness id v])) /\
    (set_device_brightness api sess id (JNum 0) = Ok false ->
     async_turn_off api sess l = Ok (l, [SetBrightness id (JNum 0)])) /\
    (forall arg st b,
        let v := turn_on_brightness arg (data (light_coordinator l)) in
        (sess (patch_request api id v) = Response st b /\ st <> 200 /\ st <> 204) \/
        (exists e, sess (patch_request api id v) = Transport e) ->
        async_turn_on api sess arg l = Ok (l, [SetBrightness id v])) /\
    (forall st b,
        (sess (patch_request api id (JNum 0)) = Response st b /\ st <> 200 /\ st <> 204) \/
        (exists e, sess (patch_request api id (JNum 0)) = Transport e) ->
        async_turn_off api sess l = Ok (l, [SetBrightness id (JNum 0)])).
Proof.
  intros api sess l id.
  assert (Hon : forall arg,
             let v := turn_on_brightness arg (data (light_coordinator l)) in
             set_device_brightness api sess id v = Ok false ->
             async_turn_on api sess arg l = Ok (l, [SetBrightness id v])).
  { intros arg v H. unfold async_turn_on. fold id. fold v. rewrite H. reflexivity. }
  assert (Hoff : set_device_brightness api sess id (JNum 0) = Ok false ->
                 async_turn_off api sess l = Ok (l, [SetBrightness id (JNum 0)])).
  { intros H. unfold async_turn_off. fold id. rewrite H. reflexivity. }
  assert (Hfalse : forall v st b,
             (sess (patch_request api id v) = Response st b /\ st <> 200 /\ st <> 204) \/
             (exists e, sess (patch_request api id v) = Transport e) ->
             set_device_brightness api sess id v = Ok false).
  { intros v st b [[Hs [H1 H2]]|[e Hs]].
    - exact (set_device_brightness_other_status _ _ _ _ _ _ Hs H1 H2).
    - exact (set_device_brightness_transport _ _ _ _ _ Hs). }
  split; [exact Hon|]. split; [exact Hoff|]. split.
  - intros arg st b v H. apply Hon. exact (Hfalse _ _ _ H).
  - intros st b H. apply Hoff. exact (Hfalse _ _ _ H).
Qed.

(** ** Witnesses: the theorems at concrete inputs *)

Definition lobby_devices : list json := [vendor_device "d1" "Lobby" 128].

Definition lobby_list_body : body :=
  json_body (JObj [("devices", JArr lobby_devices)]).

Definition lobby_snapshot : snapshot :=
  mk_snapshot true "connected" (Some (JNum 128)) (Some (JBool false))
              (Some (JStr "clock")) None.

Definition dark_snapshot : snapshot :=
  mk_snapshot true "connected" (Some (JNum 0)) (Some (JBool false)) (Some JNull) None.

Definition lobby_light : TronbytLight :=
  mk_TronbytLight "d1" (mk_coordinator "d1" lobby_snapshot true).

Definition dark_light : TronbytLight :=
  mk_TronbytLight "d1" (mk_coordinator "d1" dark_snapshot true).

(** Lists [d1] and a record without ["displayName"]. *)
Definition mixed_session : session :=
  fun _ => Response 200 (json_body (JObj [("devices",
             JArr [vendor_device "d1" "Lobby" 128; JObj [("id", JStr "d2")]])])).

Lemma get_device_status_typed_results_witness :
  get_device_status api0 lobby_session "d2" =
    Ok (mk_snapshot false "not_found" None None None None) /\
  get_device_status api0 failing_session "d1" =
    Ok (mk_snapshot false "api_error" None None None None) /\
  get_device_status api0 refused_session "d1" =
    Ok (mk_snapshot false "error" None None None
                    (Some "Cannot connect to host tronbyt.local:8000")) /\
  (exists s, get_device_status api0 lobby_session "d1" = Ok s /\
             data (async_refresh api0 lobby_session (mk_coordinator "d1" dark_snapshot false)) = s).
Proof.
  split; [|split; [|split]].
  - apply (proj1 (proj2 (get_device_status_typed_results api0 lobby_session "d2")))
      with (b := lobby_list_body) (kvs := [("devices", JArr lobby_devices)])
           (devices := lobby_devices); try reflexivity.
    constructor; [|constructor].
    exists [("id", JStr "d1"); ("displayName", JStr "Lobby"); ("brightness", JNum 128)], (JStr "d1").
    split; [reflexivity|split; [reflexivity|discriminate]].
  - apply (proj1 (proj2 (proj2 (get_device_status_typed_results api0 failing_session "d1"))))
      with (st := 500) (b := mk_body (Ok "Internal Server Error") (Raise (DecodeError "not JSON")));
      [reflexivity|discriminate].
  - apply (proj1 (proj2 (proj2 (proj2 (get_device_status_typed_results api0 refused_session "d1")))))
      with (e := ClientError "Cannot connect to host tronbyt.local:8000").
    reflexivity.
  - apply (proj2 (proj2 (proj2 (proj2 (get_device_status_typed_results api0 lobby_session "d1"))))).
    reflexivity.
Defined.

Lemma get_device_status_offline_unless_connected_witness :
  get_device_status api0 refused_session "d1" =
    Ok (mk_snapshot false "error" None None None
                    (Some "Cannot connect to host tronbyt.local:8000")) /\
  online (mk_snapshot false "error" None None None
                      (Some "Cannot connect to host tronbyt.local:8000")) = false.
Proof.
  assert (H : get_device_status api0 refused_session "d1" =
              Ok (mk_snapshot false "error" None None None
                              (Some "Cannot connect to host tronbyt.local:8000")))
    by (vm_compute; reflexivity).
  split; [exact H|].
  apply (get_device_status_offline_unless_connected api0 refused_session "d1" _ H).
  discriminate.
Defined.

Lemma update_never_fails_witness :
  _async_update_data api0 refused_session (mk_coordinator "d1" lobby_snapshot true)
    <> Raise (UpdateFailed "Error communicating with API: Cannot connect to host tronbyt.local:8000") /\
  last_update_success (async_refresh api0 refused_session (mk_coordinator "d1" lobby_snapshot true)) = true.
Proof.
  destruct (update_never_fails api0 refused_session (mk_coordinator "d1" lobby_snapshot true))
    as [Hn [s [_ [_ [_ Hl]]]]].
  split; [apply Hn|exact Hl].
Defined.

Lemma get_devices_preserves_entries_witness :
  (exists out, get_devices api0 lobby_session = Ok out /\
               length out = length lobby_devices /\
               Forall2 keeps_id_and_name lobby_devices out) /\
  get_devices api0 failing_session = Ok [] /\
  get_devices api0 refused_session = Ok [].
Proof.
  split; [|split].
  - apply (proj1 (proj2 (get_devices_preserves_entries api0 lobby_session)))
      with (b := lobby_list_body) (kvs := [("devices", JArr lobby_devices)]);
      try reflexivity.
    constructor; [|constructor].
    exists [("id", JStr "d1"); ("displayName", JStr "Lobby"); ("brightness", JNum 128)],
           (JStr "d1"), (JStr "Lobby").
    split; [reflexivity|split; reflexivity].
  - apply (proj1 (proj2 (proj2 (get_devices_preserves_entries api0 failing_session))))
      with (st := 500) (b := mk_body (Ok "Internal Server Error") (Raise (DecodeError "not JSON")));
      [reflexivity|discriminate].
  - apply (proj2 (proj2 (proj2 (get_devices_preserves_entries api0 refused_session))))
      with (e := ClientError "Cannot connect to host tronbyt.local:8000").
    reflexivity.
Defined.

Lemma get_devices_all_or_nothing_witness :
  get_devices api0 mixed_session = Ok [].
Proof.
  apply (get_devices_all_or_nothing api0 mixed_session
           (json_body (JObj [("devices", JArr [vendor_device "d1" "Lobby" 128;
                                               JObj [("id", JStr "d2")]])]))
           [("devices", JArr [vendor_device "d1" "Lobby" 128; JObj [("id", JStr "d2")]])]
           [vendor_device "d1" "Lobby" 128; JObj [("id", JStr "d2")]]
           [("id", JStr "d2")]); try reflexivity.
  - right. left. reflexivity.
  - right. reflexivity.
Defined.

Lemma set_device_brightness_success_iff_witness :
  set_device_brightness api0 lobby_session "d1" (JNum 128) = Ok true /\
  set_device_brightness api0 only128_session "d1" (JNum 128) = Ok true /\
  set_device_brightness api0 failing_session "d1" (JNum 128) = Ok false /\
  set_device_brightness api0 refused_session "d1" (JNum 128) = Ok false.
Proof.
  split; [|split; [|split]].
  - apply (proj2 (proj1 (proj2 (set_device_brightness_success_iff
                                   api0 lobby_session "d1" (JNum 128))))).
    exists 204, (json_body JNull), "". split; [reflexivity|split; [reflexivity|right; reflexivity]].
  - apply (proj1 (proj2 (proj2 (proj2 (set_device_brightness_success_iff
                                          api0 only128_session "d1" (JNum 128))))))
      with (b := json_body JNull); [reflexivity|exists ""; reflexivity].
  - apply (proj1 (proj2 (proj2 (set_device_brightness_success_iff
                                   api0 failing_session "d1" (JNum 128)))))
      with (st := 500) (b := mk_body (Ok "Internal Server Error") (Raise (DecodeError "not JSON")));
      [reflexivity|discriminate|discriminate].
  - apply (proj2 (proj2 (proj2 (proj2 (set_device_brightness_success_iff
                                          api0 refused_session "d1" (JNum 128))))))
      with (e := ClientError "Cannot connect to host tronbyt.local:8000").
    reflexivity.
Defined.

Lemma light_state_derivation_witness :
  is_on lobby_light = Ok true /\
  light_brightness lobby_light = Ok (Some 128) /\
  available lobby_light = true /\
  is_on dark_light = Ok false.
Proof.
  destruct (light_state_derivation lobby_light) as [Ha Hb].
  destruct (Hb 128 eq_refl) as [Hi Hbr].
  destruct (light_state_derivation dark_light) as [_ Hb0].
  destruct (Hb0 0 eq_refl) as [Hi0 _].
  split; [exact Hi|]. split; [exact Hbr|]. split; [rewrite Ha; reflexivity|exact Hi0].
Defined.

Lemma turn_on_brightness_idempotent_witness :
  turn_on_brightness (Some 0) dark_snapshot = JNum 1 /\
  turn_on_brightness None dark_snapshot = JNum 128 /\
  turn_on_brightness None lobby_snapshot = JNum 128 /\
  turn_on_brightness None lobby_snapshot = turn_on_brightness None dark_snapshot /\
  hd_error [SetBrightness "d1" (JNum 128); RequestRefresh] =
    Some (SetBrightness "d1" (turn_on_brightness None dark_snapshot)) /\
  hd_error [SetBrightness "d1" (JNum 128); RequestRefresh] =
    hd_error [SetBrightness "d1" (JNum 128); RequestRefresh].
Proof.
  destruct (turn_on_brightness_idempotent dark_snapshot)
    as [Hsome [Hzero [_ [_ [Hfix Hent]]]]].
  destruct (turn_on_brightness_idempotent lobby_snapshot)
    as [_ [_ [Hnz _]]].
  assert (Hd : turn_on_brightness None dark_snapshot = JNum 128)
    by (apply Hzero; reflexivity).
  split; [apply Hsome|]. split; [exact Hd|]. split; [apply Hnz; reflexivity|].
  split; [apply Hfix; rewrite Hd; reflexivity|].
  apply (Hent api0 lobby_session lobby_session "d1"
           (mk_coordinator "d1" dark_snapshot true) lobby_light
           [SetBrightness "d1" (JNum 128); RequestRefresh]
           lobby_light [SetBrightness "d1" (JNum 128); RequestRefresh]);
    try (vm_compute; reflexivity).
  right. rewrite Hd. reflexivity.
Defined.

Lemma failed_command_leaves_state_witness :
  async_turn_on api0 failing_session None lobby_light =
    Ok (lobby_light, [SetBrightness "d1" (JNum 128)]) /\
  async_turn_on api0 refused_session (Some 200) lobby_light =
    Ok (lobby_light, [SetBrightness "d1" (JNum 200)]) /\
  async_turn_off api0 failing_session lobby_light =
    Ok (lobby_light, [SetBrightness "d1" (JNum 0)]) /\
  async_turn_off api0 refused_session lobby_light =
    Ok (lobby_light, [SetBrightness "d1" (JNum 0)]).
Proof.
  destruct (failed_command_leaves_state api0 failing_session lobby_light)
    as [Hon [Hoff _]].
  destruct (failed_command_leaves_state api0 refused_session lobby_light)
    as [_ [_ [Hon' Hoff']]].
  split; [apply (Hon None); vm_compute; reflexivity|].
  split.
  - apply (Hon' (Some 200) 0 (json_body JNull)). right.
    exists (ClientError "Cannot connect to host tronbyt.local:8000"). reflexivity.
  - split; [apply Hoff; vm_compute; reflexivity|].
    apply (Hoff' 0 (json_body JNull)). right.
    exists (ClientError "Cannot connect to host tronbyt.local:8000"). reflexivity.
Defined.

(** ** Further properties of the client *)

Definition installations_request (api : TronbytAPI) (device_id : string) : request :=
  mk_request GET (installations_url api device_id) None.

Definition devices_request (api : TronbytAPI) : request :=
  mk_request GET (devices_url api) None.

(** [test_connection] answers [True] exactly when the device list is
    answered with HTTP 200, whatever the body; any other status or a
    transport error gives [False], and it never raises. *)
Theorem test_connection_status :
  forall api sess,
    test_connection api sess =
    Ok (match sess (devices_request api) with
        | Response st _ => st =? 200
        | Transport _ => false
        end).
Proof.
  intros api sess. unfold test_connection, send, devices_request.
  destruct (sess _); reflexivity.
Qed.

(** [_get_devices_fallback] (the definition the class keeps) returns the
    empty list whatever the server does: reading [self._auth], which
    [__init__] never sets, raises and the handler returns [[]]. *)
Theorem get_devices_fallback_empty :
  forall api sess, _get_devices_fallback api sess = Ok [].
Proof. intros api sess. reflexivity. Qed.

(** [_get_current_app] returns the ["appID"] of the first installation
    (["Unknown"] when that key is missing), and [None] when the list is
    empty or absent, on any status other than 200, and on a transport
    error. *)
Theorem get_current_app_first_installation :
  forall api sess device_id,
    (forall b kvs xkvs rest,
        sess (installations_request api device_id) = Response 200 b ->
        body_json b = Ok (JObj kvs) ->
        assoc_lookup "installations" kvs = Some (JArr (JObj xkvs :: rest)) ->
        _get_current_app api sess device_id =
        Ok (match assoc_lookup "appID" xkvs with Some a => a | None => JStr "Unknown" end)) /\
    (forall b kvs,
        sess (installations_request api device_id) = Response 200 b ->
        body_json b = Ok (JObj kvs) ->
        assoc_lookup "installations" kvs = Some (JArr []) \/
        assoc_lookup "installations" kvs = None ->
        _get_current_app api sess device_id = Ok JNull) /\
    (forall st b,
        sess (installations_request api device_id) = Response st b -> st <> 200 ->
        _get_current_app api sess device_id = Ok JNull) /\
    (forall e,
        sess (installations_request api device_id) = Transport e ->
        _get_current_app api sess device_id = Ok JNull).
Proof.
  intros api sess device_id. unfold _get_current_app, send.
  unfold installations_request.
  split; [|split; [|split]].
  - intros b kvs xkvs rest Hs Hb Hl. rewrite Hs. simpl. rewrite Hb. simpl.
    rewrite Hl. simpl. destruct (assoc_lookup "appID" xkvs); reflexivity.
  - intros b kvs Hs Hb Hl. rewrite Hs. simpl. rewrite Hb. simpl.
    destruct Hl as [Hl|Hl]; rewrite Hl; reflexivity.
  - intros st b Hs Hst. rewrite Hs. simpl.
    apply Z.eqb_neq in Hst. rewrite Hst. reflexivity.
  - intros e Hs. rewrite Hs. reflexivity.
Qed.

(** [get_apps]: an empty device id is falsy and selects the global
    catalogue, as [None] does; a global answer that is a dict without
    ["apps"] is returned itself (not a list); a device's answer gives its
    ["installations"] (empty when missing); a status other than 200 gives
    the empty list. *)
Theorem get_apps_selection :
  forall api sess,
    get_apps api sess (Some "") = get_apps api sess None /\
    (forall b kvs,
        sess (mk_request GET (apps_url api) None) = Response 200 b ->
        body_json b = Ok (JObj kvs) ->
        get_apps api sess None =
        Ok (match assoc_lookup "apps" kvs with Some v => v | None => JObj kvs end)) /\
    (forall b xs,
        sess (mk_request GET (apps_url api) None) = Response 200 b ->
        body_json b = Ok (JArr xs) ->
        get_apps api sess None = Ok (JArr xs)) /\
    (forall id b kvs,
        id <> "" ->
        sess (installations_request api id) = Response 200 b ->
        body_json b = Ok (JObj kvs) ->
        get_apps api sess (Some id) =
        Ok (match assoc_lookup "installations" kvs with Some v => v | None => JArr [] end)) /\
    (forall st b,
        sess (mk_request GET (apps_url api) None) = Response st b -> st <> 200 ->
        get_apps api sess None = Ok (JArr [])) /\
    (forall id st b,
        id <> "" ->
        sess (installations_request api id) = Response st b -> st <> 200 ->
        get_apps api sess (Some id) = Ok (JArr [])).
Proof.
  intros api sess. unfold get_apps, send, installations_request.
  split; [reflexivity|]. split; [|split; [|split; [|split]]].
  - intros b kvs Hs Hb. rewrite Hs. simpl. rewrite Hb. simpl.
    destruct (assoc_lookup "apps" kvs); reflexivity.
  - intros b xs Hs Hb. rewrite Hs. simpl. rewrite Hb. reflexivity.
  - intros id b kvs Hid Hs Hb. apply String.eqb_neq in Hid. rewrite Hid. simpl.
    rewrite Hs. simpl. rewrite Hb. simpl.
    destruct (assoc_lookup "installations" kvs); reflexivity.
  - intros st b Hs Hst. rewrite Hs. simpl.
    apply Z.eqb_neq in Hst. rewrite Hst. reflexivity.
  - intros id st b Hid Hs Hst. apply String.eqb_neq in Hid. rewrite Hid. simpl.
    rewrite Hs. simpl. apply Z.eqb_neq in Hst. rewrite Hst. reflexivity.
Qed.

(** [set_device_app] posts [{"appId": app_id}] to the device's
    installations and returns [True] exactly when the answer is 200, 201
    or 204; any other status or a transport error gives [False]. *)
Theorem set_device_app_status :
  forall api sess device_id app_id,
    set_device_app api sess device_id app_id =
    Ok (match sess (mk_request POST (installations_url api device_id)
                               (Some (JObj [("appId", JStr app_id)]))) with
        | Response st _ => orb (st =? 200) (orb (st =? 201) (st =? 204))
        | Transport _ => false
        end).
Proof.
  intros. unfold set_device_app, send. destruct (sess _); reflexivity.
Qed.





(** ** Service handlers *)

Lemma prefix_app s t : String.prefix s (s ++ t) = true.
Proof.
  induction s as [|a s IH]; [destruct t; reflexivity|].
  simpl. destruct (ascii_dec a a) as [_|n]; [exact IH|contradiction].
Qed.












(** The service handlers do nothing for an entity id that does not start
    with ["light.tronbyt_"], and [set_app] does nothing for an empty app
    id. *)
Theorem service_handlers_ignore :
  forall api sess entity_id b app_id,
    (String.prefix "light.tronbyt_" entity_id = false ->
     handle_set_brightness api sess entity_id b = Ok None /\
     handle_set_app api sess entity_id app_id = Ok None) /\
    handle_set_app api sess entity_id "" = Ok None.
Proof.
  intros api sess entity_id b app_id. split.
  - intros Hp. unfold handle_set_brightness, handle_set_app, is_tronbyt_entity.
    rewrite Hp. rewrite andb_false_r. auto.
  - unfold handle_set_app. rewrite andb_false_r. reflexivity.
Qed.

(** ** Light attributes and state *)

Lemma assoc_lookup_app k l1 l2 :
  assoc_lookup k (l1 ++ l2)%list =
  match assoc_lookup k l1 with Some v => Some v | None => assoc_lookup k l2 end.
Proof.
  induction l1 as [|[k' v'] l1 IH]; [reflexivity|].
  simpl. destruct (String.eqb k k'); [reflexivity|exact IH].
Qed.

Lemma add_if_truthy_other k k' v attrs :
  k <> k' -> assoc_lookup k (add_if_truthy k' v attrs) = assoc_lookup k attrs.
Proof.
  intros Hne. unfold add_if_truthy.
  destruct v as [x|]; [|reflexivity]. destruct (py_truthy x); [|reflexivity].
  rewrite assoc_lookup_app. simpl. apply String.eqb_neq in Hne. rewrite Hne.
  destruct (assoc_lookup k attrs); reflexivity.
Qed.

Lemma add_if_truthy_same k v attrs :
  assoc_lookup k attrs = None ->
  assoc_lookup k (add_if_truthy k v attrs) =
  match v with Some x => if py_truthy x then Some x else None | None => None end.
Proof.
  intros Hn. unfold add_if_truthy.
  destruct v as [x|]; [|exact Hn]. destruct (py_truthy x); [|exact Hn].
  rewrite assoc_lookup_app, Hn. simpl. rewrite String.eqb_refl. reflexivity.
Qed.

(** [extra_state_attributes] always carries the device id and the status;
    ["api_brightness"], ["current_app"] and ["auto_dim"] appear exactly
    when the snapshot's value is truthy: a brightness of 0 or an
    [auto_dim] of [False] leaves the key out. *)
Theorem extra_state_attributes_truthy :
  forall l,
    let d := data (light_coordinator l) in
    let attrs := extra_state_attributes l in
    assoc_lookup "device_id" attrs = Some (JStr (light_device_id l)) /\
    assoc_lookup "status" attrs = Some (JStr (status d)) /\
    assoc_lookup "api_brightness" attrs =
      match brightness d with Some x => if py_truthy x then Some x else None | None => None end /\
    assoc_lookup "current_app" attrs =
      match current_app d with Some x => if py_truthy x then Some x else None | None => None end /\
    assoc_lookup "auto_dim" attrs =
      match auto_dim d with Some x => if py_truthy x then Some x else None | None => None end.
Proof.
  intros l d attrs. subst d attrs. unfold extra_state_attributes.
  repeat split.
  - rewrite !add_if_truthy_other by discriminate. reflexivity.
  - rewrite !add_if_truthy_other by discriminate. reflexivity.
  - rewrite !add_if_truthy_other by discriminate.
    apply add_if_truthy_same. reflexivity.
  - rewrite add_if_truthy_other by discriminate.
    apply add_if_truthy_same. rewrite add_if_truthy_other by discriminate. reflexivity.
  - apply add_if_truthy_same. rewrite !add_if_truthy_other by discriminate. reflexivity.
Qed.

(** With a [None] brightness in the snapshot the [brightness] property
    returns [None] while [is_on] raises a [TypeError] ([None > 0]). *)
Theorem light_null_brightness :
  forall l,
    data_get_brightness (data (light_coordinator l)) (JNum 0) = JNull ->
    light_brightness l = Ok None /\ exists e, is_on l = Raise e.
Proof.
  intros l H. unfold light_brightness, is_on. rewrite H. simpl. eauto.
Qed.

(** A successful command ([set_device_brightness] answering [True]) is
    followed by exactly one refresh: [async_turn_on] and [async_turn_off]
    issue the command, then request the refresh, and the coordinator then
    holds the status [get_device_status] returns, flagged successful. *)
Theorem successful_command_refreshes :
  forall api sess l,
    let id := light_device_id l in
    let c := light_coordinator l in
    (forall arg,
        let v := turn_on_brightness arg (data c) in
        set_device_brightness api sess id v = Ok true ->
        exists s, get_device_status api sess (coord_device_id c) = Ok s /\
          async_turn_on api sess arg l =
          Ok (mk_TronbytLight id (mk_coordinator (coord_device_id c) s true),
              [SetBrightness id v; RequestRefresh])) /\
    (set_device_brightness api sess id (JNum 0) = Ok true ->
     exists s, get_device_status api sess (coord_device_id c) = Ok s /\
       async_turn_off api sess l =
       Ok (mk_TronbytLight id (mk_coordinator (coord_device_id c) s true),
           [SetBrightness id (JNum 0); RequestRefresh])).
Proof.
  intros api sess l id c.
  destruct (async_refresh_stores api sess c) as [s [Hs [_ Hr]]].
  split.
  - intros arg v H. exists s. split; [exact Hs|].
    unfold async_turn_on. fold id c v. rewrite H. cbn [bind].
    unfold async_request_refresh. rewrite Hr. reflexivity.
  - intros H. exists s. split; [exact Hs|].
    unfold async_turn_off. fold id c. rewrite H. cbn [bind].
    unfold async_request_refresh. rewrite Hr. reflexivity.
Qed.

(** ** Config flow *)

Lemma test_connection_flow_cases sess u :
  (exists ds, _test_connection sess u = FOk ds) \/
  _test_connection sess u = FRaise CannotConnect.
Proof.
  unfold _test_connection.
  match goal with |- context [match ?m with FOk _ => _ | FRaise _ => _ end] =>
    destruct m end; eauto.
Qed.

Lemma normalize_url_raises_py h url e :
  _normalize_url h url = FRaise e -> exists pe, e = FlowPy pe.
Proof.
  unfold _normalize_url. intros H.
  destruct (h _) as [x|]; [destruct (String.eqb x "")|];
    inversion H; eauto.
Qed.

Lemma abort_if_unique_id_configured_cases configured uid :
  (In uid configured /\
   abort_if_unique_id_configured configured uid = FRaise (AbortFlow "already_configured")) \/
  (~ In uid configured /\ abort_if_unique_id_configured configured uid = FOk tt).
Proof.
  unfold abort_if_unique_id_configured.
  destruct (existsb (String.eqb uid) configured) eqn:He.
  - left. split; [|reflexivity].
    apply existsb_exists in He as [x [Hx Heq]].
    apply String.eqb_eq in Heq. subst x. exact Hx.
  - right. split; [|reflexivity]. intros Hin.
    assert (existsb (String.eqb uid) configured = true) as Ht.
    { apply existsb_exists. exists uid. split; [exact Hin|apply String.eqb_refl]. }
    congruence.
Qed.

(** The user step never shows the ["invalid_auth"] error: a 401 answer
    raises [InvalidAuth] inside [_test_connection]'s own [try], where the
    [except Exception] clause turns it into [CannotConnect]. *)
Theorem async_step_user_never_invalid_auth :
  forall hostname sess configured input,
    async_step_user hostname sess configured input <>
    ShowUserForm [("base", "invalid_auth")].
Proof.
  intros hostname sess configured [ui|]; [|discriminate].
  unfold async_step_user.
  destruct (_normalize_url hostname (in_base_url ui)) as [u|e] eqn:Hn.
  - cbn [fbind].
    destruct (test_connection_flow_cases sess u) as [[ds Hds]|Hds]; rewrite Hds;
      cbn [fbind]; [|discriminate].
    destruct ds as [|d ds]; [discriminate|].
    destruct (abort_if_unique_id_configured_cases configured (u ++ "_" ++ in_username ui))
      as [[_ Ha]|[_ Ha]]; rewrite Ha; discriminate.
  - cbn [fbind]. destruct (normalize_url_raises_py _ _ _ Hn) as [pe ->]. discriminate.
Qed.

(** Errors of the user step once the URL is accepted: any answer other
    than 200 (401 included) and any transport error give
    ["cannot_connect"]; a 200 answer whose JSON object has no devices
    gives ["no_devices"]. *)
Theorem async_step_user_connection_errors :
  forall hostname sess configured ui u,
    _normalize_url hostname (in_base_url ui) = FOk u ->
    let req := mk_request GET (u ++ "/v0/devices") None in
    (forall st b, sess req = Response st b -> st <> 200 ->
       async_step_user hostname sess configured (Some ui) =
       ShowUserForm [("base", "cannot_connect")]) /\
    (forall e, sess req = Transport e ->
       async_step_user hostname sess configured (Some ui) =
       ShowUserForm [("base", "cannot_connect")]) /\
    (forall b kvs, sess req = Response 200 b -> body_json b = Ok (JObj kvs) ->
       (assoc_lookup "devices" kvs = None \/ assoc_lookup "devices" kvs = Some (JArr [])) ->
       async_step_user hostname sess configured (Some ui) =
       ShowUserForm [("base", "no_devices")]).
Proof.
  intros hostname sess configured ui u Hn req.
  unfold async_step_user. rewrite Hn. cbn [fbind].
  repeat split.
  - intros st b Hs Hst. unfold _test_connection. fold req. unfold send. rewrite Hs.
    cbn [lift fbind].
    destruct (st =? 401); [reflexivity|].
    apply Z.eqb_neq in Hst. rewrite Hst. reflexivity.
  - intros e Hs. unfold _test_connection. fold req. unfold send. rewrite Hs.
    reflexivity.
  - intros b kvs Hs Hb Hd. unfold _test_connection. fold req. unfold send. rewrite Hs.
    cbn [lift fbind]. simpl (200 =? 401). simpl (negb (200 =? 200)).
    rewrite Hb. cbn [bind]. unfold py_get.
    destruct Hd as [Hd|Hd]; simpl; rewrite Hd; reflexivity.
Qed.


(** An accepted URL starts with ["http://"] or ["https://"]; a stripped
    input with neither scheme gets ["https://"] put in front. *)
Theorem normalize_url_scheme :
  forall hostname url u,
    _normalize_url hostname url = FOk u ->
    (String.prefix "http://" u = true \/ String.prefix "https://" u = true) /\
    (let v := rstrip_slash (py_strip url) in
     String.prefix "http://" v = false -> String.prefix "https://" v = false ->
     u = "https://" ++ v).
Proof.
  intros hostname url u H. unfold _normalize_url in H.
  set (v := rstrip_slash (py_strip url)) in *.
  assert (Hu : u = if orb (String.prefix "http://" v) (String.prefix "https://" v)
                   then v else "https://" ++ v).
  { destruct (hostname _) as [x|]; [destruct (String.eqb x "")|]; congruence. }
  clear H. split.
  - subst u.
    destruct (String.prefix "http://" v) eqn:H1; [left; exact H1|].
    destruct (String.prefix "https://" v) eqn:H2; [right; exact H2|].
    right. apply prefix_app.
  - cbv zeta. intros H1 H2. subst u. rewrite H1, H2. reflexivity.
Qed.

(** ** Examples of the further properties *)

(** A light whose snapshot holds a [None] brightness. *)
Definition null_light : TronbytLight :=
  mk_TronbytLight "d1" (mk_coordinator "d1"
    (mk_snapshot true "connected" (Some JNull) (Some (JBool false)) None None) true).

(** A server refusing every request with HTTP 401. *)
Definition unauthorized_session : session :=
  fun _ => Response 401 (json_body (JObj [("error", JStr "unauthorized")])).

(** [urlparse(url).hostname] for the URLs of the examples. *)
Definition tronbyt_local_hostname (url : string) : option string :=
  Some "tronbyt.local".

Definition alice_input : user_input :=
  mk_user_input " http://tronbyt.local:8000/ " "alice" "secret".

Definition schemeless_input : user_input :=
  mk_user_input "tronbyt.local:8000/" "alice" "secret".

Definition clock_installations : json :=
  JObj [("installations", JArr [JObj [("appID", JStr "clock")]])].

Lemma get_current_app_first_installation_witness :
  _get_current_app api0 lobby_session "d1" = Ok (JStr "clock") /\
  _get_current_app api0 failing_session "d1" = Ok JNull /\
  _get_current_app api0 refused_session "d1" = Ok JNull.
Proof.
  split; [|split].
  - apply (proj1 (get_current_app_first_installation api0 lobby_session "d1"))
      with (b := json_body clock_installations)
           (kvs := [("installations", JArr [JObj [("appID", JStr "clock")]])])
           (xkvs := [("appID", JStr "clock")]) (rest := []); vm_compute; reflexivity.
  - apply (proj1 (proj2 (proj2 (get_current_app_first_installation api0 failing_session "d1"))))
      with (st := 500) (b := mk_body (Ok "Internal Server Error") (Raise (DecodeError "not JSON")));
      [reflexivity|discriminate].
  - apply (proj2 (proj2 (proj2 (get_current_app_first_installation api0 refused_session "d1"))))
      with (e := ClientError "Cannot connect to host tronbyt.local:8000").
    reflexivity.
Defined.

Lemma get_apps_selection_witness :
  get_apps api0 lobby_session (Some "") = Ok clock_installations /\
  get_apps api0 lobby_session (Some "d1") = Ok (JArr [JObj [("appID", JStr "clock")]]) /\
  get_apps api0 failing_session None = Ok (JArr []) /\
  get_apps api0 failing_session (Some "d1") = Ok (JArr []).
Proof.
  destruct (get_apps_selection api0 lobby_session) as [Hempty [Hglob [_ [Hdev _]]]].
  destruct (get_apps_selection api0 failing_session) as [_ [_ [_ [_ [Hst Hdst]]]]].
  split; [|split; [|split]].
  - rewrite Hempty.
    rewrite (Hglob (json_body clock_installations)
                   [("installations", JArr [JObj [("appID", JStr "clock")]])]);
      vm_compute; reflexivity.
  - rewrite (Hdev "d1" (json_body clock_installations)
                  [("installations", JArr [JObj [("appID", JStr "clock")]])]);
      [reflexivity|discriminate|vm_compute; reflexivity|reflexivity].
  - apply (Hst 500 (mk_body (Ok "Internal Server Error") (Raise (DecodeError "not JSON"))));
      [reflexivity|discriminate].
  - apply (Hdst "d1" 500 (mk_body (Ok "Internal Server Error") (Raise (DecodeError "not JSON"))));
      [discriminate|reflexivity|discriminate].
Defined.




Lemma service_handlers_ignore_witness :
  handle_set_brightness api0 lobby_session "light.lobby" 40 = Ok None /\
  handle_set_app api0 lobby_session "light.lobby" "clock" = Ok None /\
  handle_set_app api0 lobby_session "light.tronbyt_d1_light" "" = Ok None.
Proof.
  destruct (service_handlers_ignore api0 lobby_session "light.lobby" 40 "clock")
    as [H _].
  destruct (H eq_refl) as [H1 H2].
  split; [exact H1|]. split; [exact H2|].
  apply (proj2 (service_handlers_ignore api0 lobby_session "light.tronbyt_d1_light" 40 "clock")).
Defined.

Lemma light_null_brightness_witness :
  light_brightness null_light = Ok None /\ exists e, is_on null_light = Raise e.
Proof. apply light_null_brightness. reflexivity. Defined.

Lemma successful_command_refreshes_witness :
  async_turn_off api0 lobby_session dark_light =
    Ok (lobby_light, [SetBrightness "d1" (JNum 0); RequestRefresh]) /\
  async_turn_on api0 lobby_session (Some 200) dark_light =
    Ok (lobby_light, [SetBrightness "d1" (JNum 200); RequestRefresh]).
Proof.
  destruct (successful_command_refreshes api0 lobby_session dark_light) as [Hon Hoff].
  destruct Hoff as [s [Hs Hoff]]; [vm_compute; reflexivity|].
  destruct (Hon (Some 200)) as [s' [Hs' Hon']]; [vm_compute; reflexivity|].
  vm_compute in Hs. injection Hs as <-.
  vm_compute in Hs'. injection Hs' as <-.
  split; [rewrite Hoff|rewrite Hon']; reflexivity.
Defined.

Lemma async_step_user_never_invalid_auth_witness :
  async_step_user tronbyt_local_hostname unauthorized_session [] (Some alice_input)
    <> ShowUserForm [("base", "invalid_auth")] /\
  async_step_user tronbyt_local_hostname unauthorized_session [] (Some alice_input) =
    ShowUserForm [("base", "cannot_connect")].
Proof.
  split; [apply async_step_user_never_invalid_auth|vm_compute; reflexivity].
Defined.

Lemma async_step_user_connection_errors_witness :
  async_step_user tronbyt_local_hostname unauthorized_session [] (Some alice_input) =
    ShowUserForm [("base", "cannot_connect")] /\
  async_step_user tronbyt_local_hostname refused_session [] (Some alice_input) =
    ShowUserForm [("base", "cannot_connect")] /\
  async_step_user tronbyt_local_hostname lobby_session [] (Some schemeless_input) =
    ShowUserForm [("base", "no_devices")].
Proof.
  destruct (async_step_user_connection_errors tronbyt_local_hostname unauthorized_session []
              alice_input "http://tronbyt.local:8000") as [H401 _];
    [vm_compute; reflexivity|].
  destruct (async_step_user_connection_errors tronbyt_local_hostname refused_session []
              alice_input "http://tronbyt.local:8000") as [_ [Htr _]];
    [vm_compute; reflexivity|].
  destruct (async_step_user_connection_errors tronbyt_local_hostname lobby_session []
              schemeless_input "https://tronbyt.local:8000") as [_ [_ Hnd]];
    [vm_compute; reflexivity|].
  split; [|split].
  - apply (H401 401 (json_body (JObj [("error", JStr "unauthorized")])));
      [reflexivity|discriminate].
  - apply (Htr (ClientError "Cannot connect to host tronbyt.local:8000")). reflexivity.
  - apply (Hnd (json_body clock_installations)
               [("installations", JArr [JObj [("appID", JStr "clock")]])]);
      [vm_compute; reflexivity|reflexivity|left; reflexivity].
Defined.


Lemma normalize_url_scheme_witness :
  String.prefix "https://" "https://tronbyt.local:8000" = true /\
  "https://tronbyt.local:8000" = "https://" ++ rstrip_slash (py_strip "tronbyt.local:8000/").
Proof.
  assert (H : _normalize_url tronbyt_local_hostname "tronbyt.local:8000/" =
              FOk "https://tronbyt.local:8000") by (vm_compute; reflexivity).
  destruct (normalize_url_scheme _ _ _ H) as [_ Hv].
  split; [reflexivity|]. apply Hv; vm_compute; reflexivity.
Defined.
